(** * Paddle fragments: strided view gradient kernels, test wiring, helper API

    The development follows four source files:

    - [paddle/phi/kernels/stride/view_grad_kernel.cc]: the two gradient
      kernels of the strided [view] operator (module [phi]);
    - [test/prim/pir_prim/CMakeLists.txt]: registration of the Python test
      modules of the directory under two environments (module [pir_prim]);
    - the oneDNN C++ test list (module [mkldnn_tests]);
    - [paddle/fluid/pir/dialect/operator/ir/manual_api.h]: prototypes of the
      graph-building helper functions (module [dialect]).

    Definitions come first, one module per source file; the theorems follow. *)

From Stdlib Require Import ZArith Ascii List Bool Lia.
From stdpp Require Import base option list strings gmap.

(* ===================================================================== *)
(** * namespace phi: view_grad_kernel.cc *)
(* ===================================================================== *)

Module phi.

(** Objects are passed to kernels by reference ([const DenseTensor&]) or by
    pointer ([DenseTensor*]).  A reference is the identity of an object in the
    store; two parameters may name the same object. *)
Definition tensor_ref := positive.

(** What the translation unit takes from the headers it includes: the tensor
    type with its two accessors, the shape type and [common::vectorize], the
    [DataType] enumeration and the exceptions a kernel may raise.  None of
    them is declared in these files, so they are an interface. *)
Class TensorCore := {
  DataType : Type;
  DDim : Type;
  DenseTensor : Type;
  Exception : Type;
  DenseTensor_dims : DenseTensor -> DDim;           (* input.dims() *)
  DenseTensor_dtype : DenseTensor -> DataType;      (* input.dtype() *)
  vectorize : DDim -> list Z                        (* common::vectorize<int64_t> *)
}.

(** How a call ends: normally with a value and the new store, with an
    exception, or with no defined behaviour (a reference to no object). *)
Inductive outcome (S E A : Type) : Type :=
| Returns (a : A) (s : S)
| Throws (e : E)
| Undefined.
Arguments Returns {S E A} a s.
Arguments Throws {S E A} e.
Arguments Undefined {S E A}.

(** The objects alive at a call. *)
Abbreviation Store := (gmap tensor_ref DenseTensor).

Section Kernels.
Context `{TensorCore}.

(** A computation over the store. *)
Definition M (A : Type) : Type := Store -> outcome Store Exception A.

Definition ret {A} (a : A) : M A := fun s => Returns a s.

Definition bind {A B} (m : M A) (k : A -> M B) : M B :=
  fun s => match m s with
           | Returns a s' => k a s'
           | Throws e => Throws e
           | Undefined => Undefined
           end.

(** Reading through a reference. *)
Definition deref (r : tensor_ref) : M DenseTensor :=
  fun s => match s !! r with
           | Some t => Returns t s
           | None => Undefined
           end.

(** [paddle/phi/kernels/view_kernel.h]: the forward kernels, templates over
    the device context.  Their bodies are in another translation unit. *)
Class ViewKernel (Context : Type) := {
  ViewShapeKernel :
    Context -> tensor_ref -> list Z -> tensor_ref -> M unit;
  ViewDtypeKernel :
    Context -> tensor_ref -> DataType -> tensor_ref -> M unit
}.

End Kernels.

Declare Scope phi_scope.
Delimit Scope phi_scope with phi.
Notation "'let*' x ':=' m 'in' k" := (bind m (fun x => k))
  (at level 10, x name, m at level 100, k at level 200) : phi_scope.

Section GradKernels.
Context `{TensorCore} {Context : Type} `{!ViewKernel Context}.
Local Open Scope phi_scope.

(** view_grad_kernel.cc, lines 21-29.  The argument
    [common::vectorize<int64_t>(input.dims())] is a temporary built before the
    forward kernel runs. *)
Definition ViewShapeGradKernel (dev_ctx : Context)
  (input out_grad : tensor_ref) (dims : list Z) (input_grad : tensor_ref)
  : M unit :=
  let* input_obj := deref input in
  ViewShapeKernel dev_ctx out_grad
    (vectorize (DenseTensor_dims input_obj)) input_grad.

(** view_grad_kernel.cc, lines 31-38. *)
Definition ViewDtypeGradKernel (dev_ctx : Context)
  (input out_grad : tensor_ref) (dtype : DataType) (input_grad : tensor_ref)
  : M unit :=
  let* input_obj := deref input in
  ViewDtypeKernel dev_ctx out_grad (DenseTensor_dtype input_obj) input_grad.

(** The two gradient kernels as the documentation words them: the forward
    view kernel applied to [out_grad], with the shape (respectively the
    element type) of the original input object. *)
Definition forward_view_with_input_dims (dev_ctx : Context)
  (input_obj : DenseTensor) (out_grad input_grad : tensor_ref) : M unit :=
  ViewShapeKernel dev_ctx out_grad
    (vectorize (DenseTensor_dims input_obj)) input_grad.

Definition forward_view_with_input_dtype (dev_ctx : Context)
  (input_obj : DenseTensor) (out_grad input_grad : tensor_ref) : M unit :=
  ViewDtypeKernel dev_ctx out_grad (DenseTensor_dtype input_obj) input_grad.

(** "The forward kernel always produces an output tensor whose dims equal the
    dims vector it is given": every call on live objects returns, and the
    object behind [out] then has the extents [dims]. *)
Definition forward_view_sets_dims : Prop :=
  forall (dev_ctx : Context) (x : tensor_ref) (dims : list Z)
         (out : tensor_ref) (s : Store),
    is_Some (s !! x) -> is_Some (s !! out) ->
    exists (s' : Store) (out_obj : DenseTensor),
      ViewShapeKernel dev_ctx x dims out s = Returns tt s'
      /\ s' !! out = Some out_obj
      /\ vectorize (DenseTensor_dims out_obj) = dims.

(** The same as a postcondition only: the forward kernel may throw, and when
    it returns the object behind [out] has the extents [dims]. *)
Definition forward_view_dims_post : Prop :=
  forall (dev_ctx : Context) (x : tensor_ref) (dims : list Z)
         (out : tensor_ref) (s s' : Store),
    ViewShapeKernel dev_ctx x dims out s = Returns tt s' ->
    exists out_obj : DenseTensor,
      s' !! out = Some out_obj
      /\ vectorize (DenseTensor_dims out_obj) = dims.

(** What a caller reads back from the slot [out] when a call ends. *)
Definition result_at (out : tensor_ref) (o : outcome Store Exception unit)
  : outcome (option DenseTensor) Exception unit :=
  match o with
  | Returns a s => Returns a (s !! out)
  | Throws e => Throws e
  | Undefined => Undefined
  end.

(** A forward kernel is local when what it leaves in [out] (or throws) is
    fixed by its arguments and the two objects [x] and [out] alone. *)
Definition local_kernel {Arg : Type}
  (kernel : tensor_ref -> Arg -> tensor_ref -> M unit) : Prop :=
  forall (x : tensor_ref) (a : Arg) (out : tensor_ref) (s1 s2 : Store),
    s1 !! x = s2 !! x ->
    s1 !! out = s2 !! out ->
    result_at out (kernel x a out s1) = result_at out (kernel x a out s2).

(** The forward dtype kernel gives its output the element type it is told:
    every call on live objects returns, and the object behind [out] then has
    the element type [dtype]. *)
Definition forward_view_sets_dtype : Prop :=
  forall (dev_ctx : Context) (x : tensor_ref) (dtype : DataType)
         (out : tensor_ref) (s : Store),
    is_Some (s !! x) -> is_Some (s !! out) ->
    exists (s' : Store) (out_obj : DenseTensor),
      ViewDtypeKernel dev_ctx x dtype out s = Returns tt s'
      /\ s' !! out = Some out_obj
      /\ DenseTensor_dtype out_obj = dtype.

(** A forward kernel writes through its output pointer only: when it
    returns, every other object is as it was.  Its input is a
    [const DenseTensor&]. *)
Definition writes_out_only {Arg : Type}
  (kernel : tensor_ref -> Arg -> tensor_ref -> M unit) : Prop :=
  forall (x : tensor_ref) (a : Arg) (out : tensor_ref) (s s' : Store),
    kernel x a out s = Returns tt s' ->
    forall r : tensor_ref, r <> out -> s' !! r = s !! r.

End GradKernels.

End phi.

(* ===================================================================== *)
(** * A small backend, to run the kernels on concrete stores *)
(* ===================================================================== *)

(** The forward kernels of this module stand in for the framework's, whose
    code is in another translation unit; they serve the examples only. *)
Module phi_example.
Import phi.

Inductive dtype := FLOAT32 | INT64 | UNDEFINED.

(** A tensor object: extents, element type, and the buffer it views. *)
Record tensor := {
  extents : list Z;
  element_type : dtype;
  holder : nat
}.

#[export] Instance core : TensorCore := {|
  DataType := dtype;
  DDim := list Z;
  DenseTensor := tensor;
  Exception := string;
  DenseTensor_dims := extents;
  DenseTensor_dtype := element_type;
  vectorize := fun d => d
|}.

(** A view shares the buffer of its input and changes one attribute. *)
Definition view_shape (_ : unit) (x : tensor_ref) (dims : list Z)
  (out : tensor_ref) : M unit :=
  fun s => match s !! x with
           | Some t =>
               Returns tt
                 (<[out := {| extents := dims;
                              element_type := element_type t;
                              holder := holder t |}]> s)
           | None => Undefined
           end.

Definition view_dtype (_ : unit) (x : tensor_ref) (dt : dtype)
  (out : tensor_ref) : M unit :=
  fun s => match s !! x with
           | Some t =>
               Returns tt
                 (<[out := {| extents := extents t;
                              element_type := dt;
                              holder := holder t |}]> s)
           | None => Undefined
           end.

#[export] Instance cpu_view : ViewKernel unit := {|
  ViewShapeKernel := view_shape;
  ViewDtypeKernel := view_dtype
|}.

(** The input object of the examples, shape 2x3. *)
Definition obj1 : tensor :=
  {| extents := [2; 3]%Z; element_type := FLOAT32; holder := 10 |}.

(** The shape of [obj1], another element type and buffer. *)
Definition obj4 : tensor :=
  {| extents := [2; 3]%Z; element_type := INT64; holder := 40 |}.

(** The element type of [obj1], another shape and buffer. *)
Definition obj5 : tensor :=
  {| extents := [3; 2]%Z; element_type := FLOAT32; holder := 50 |}.

(** Five live objects: the input [obj1] at 1, a gradient of shape 6 at 2, an
    empty output slot at 3, and [obj4], [obj5] at 4 and 5. *)
Definition store0 : Store :=
  <[1%positive := obj1]>
  (<[2%positive := {| extents := [6]%Z; element_type := INT64;
                      holder := 20 |}]>
  (<[3%positive := {| extents := []; element_type := UNDEFINED;
                      holder := 0 |}]>
  (<[4%positive := obj4]>
  (<[5%positive := obj5]> ∅)))).

(** [store0] after the shape gradient of object 1 through the gradient 2 is
    written to slot 3, and after the dtype gradient is. *)
Definition store0_after_shape_grad : Store :=
  <[3%positive := {| extents := [2; 3]%Z; element_type := INT64;
                     holder := 20 |}]> store0.

Definition store0_after_dtype_grad : Store :=
  <[3%positive := {| extents := [6]%Z; element_type := FLOAT32;
                     holder := 20 |}]> store0.

End phi_example.

(* ===================================================================== *)
(** * CMake: the commands the two test lists use *)
(* ===================================================================== *)

Module cmake.

(** A CMake value is a string; a list is a string whose elements are
    separated by semicolons.  Escaped semicolons and bracket nesting are not
    modelled: no name in these files contains a backslash or a bracket. *)
Definition semicolon : ascii := ";"%char.

(** The pieces of a string between its semicolons (at least one piece). *)
Fixpoint split_semicolon (s : string) : list string :=
  match s with
  | EmptyString => [EmptyString]
  | String c s' =>
      if Ascii.eqb c semicolon then EmptyString :: split_semicolon s'
      else match split_semicolon s' with
           | piece :: pieces => String c piece :: pieces
           | [] => [String c EmptyString]
           end
  end.

(** The elements of a list variable as the [list()] command sees them: the
    empty string is the empty list, empty elements are kept. *)
Definition list_elements (v : string) : list string :=
  if decide (v = "") then [] else split_semicolon v.

(** An unquoted reference [${VAR}] in argument position: one argument per
    element, empty elements give no argument. *)
Definition unquoted (v : string) : list string :=
  filter (λ piece, piece ≠ "") (split_semicolon v).

(** A list value from its elements. *)
Fixpoint join_semicolon (l : list string) : string :=
  match l with
  | [] => ""
  | [x] => x
  | x :: l' => x +:+ String semicolon (join_semicolon l')
  end.

(** [set(VAR arg...)]. *)
Definition set (args : list string) : string := join_semicolon args.

(** [string(REPLACE match replace out input)]: every occurrence of the
    (non-empty) match string, found from left to right without overlap, is
    replaced.  [skip] counts the characters of a match still to be dropped. *)
Fixpoint REPLACE_from (skip : nat) (match_string replace_string input : string)
  : string :=
  match input with
  | EmptyString => EmptyString
  | String c rest =>
      match skip with
      | S k => REPLACE_from k match_string replace_string rest
      | O =>
          if String.prefix match_string input
          then replace_string +:+
               REPLACE_from (String.length match_string - 1)
                            match_string replace_string rest
          else String c (REPLACE_from 0 match_string replace_string rest)
      end
  end.

Definition string_REPLACE (match_string replace_string input : string)
  : string :=
  REPLACE_from 0 match_string replace_string input.

(** [list(REMOVE_ITEM VAR value...)]: every element equal to one of the
    values is removed. *)
Definition list_REMOVE_ITEM (v : string) (values : list string) : string :=
  join_semicolon (filter (λ x, x ∉ values) (list_elements v)).

(** Globbing expressions with [*] and [?]; any other character stands for
    itself (case matters, as on the platforms where file names do). *)
Fixpoint glob_match (pattern : string) : string -> bool :=
  match pattern with
  | EmptyString => fun name => if decide (name = "") then true else false
  | String p pattern' =>
      if Ascii.eqb p "*"%char then
        fix star (name : string) : bool :=
          glob_match pattern' name
          || match name with
             | EmptyString => false
             | String _ name' => star name'
             end
      else fun name =>
        match name with
        | EmptyString => false
        | String c name' =>
            (Ascii.eqb p "?"%char || Ascii.eqb p c)
            && glob_match pattern' name'
        end
  end.

(** [file(GLOB VAR RELATIVE dir expr)]: [entries] are the names in the
    directory, in the order the command lists them. *)
Definition file_GLOB (entries : list string) (expr : string) : string :=
  join_semicolon (filter (λ name, glob_match expr name = true) entries).

(** [foreach(var items...) body endforeach()]: the body runs once per item,
    in order; what the runs declare is collected. *)
Definition foreach {A} (items : list string) (body : string -> list A)
  : list A :=
  flat_map body items.

(** [lacks c s]: the character [c] does not occur in [s]. *)
Fixpoint lacks (c : ascii) (s : string) : bool :=
  match s with
  | EmptyString => true
  | String d s' => negb (Ascii.eqb d c) && lacks c s'
  end.

(** An element that survives every reading of a list: not empty, and with
    no semicolon inside. *)
Definition is_element (s : string) : Prop :=
  s ≠ "" ∧ lacks semicolon s = true.

End cmake.

(* ===================================================================== *)
(** * test/prim/pir_prim/CMakeLists.txt *)
(* ===================================================================== *)

Module pir_prim.

(** A call of [py_test_modules(name MODULES m... ENVS e...)].  The function
    is one of the framework's CMake helpers; a call registers the test
    [name], running the modules under the environment. *)
Record py_test := {
  TARGET_NAME : string;
  MODULES : list string;
  ENVS : list string
}.

Definition py_test_modules (name : string) (modules envs : list string)
  : list py_test :=
  [ {| TARGET_NAME := name; MODULES := modules; ENVS := envs |} ].

Definition pure_pir_envs : list string :=
  ["GLOG_v=1"; "FLAGS_enable_pir_api=true"; "FLAGS_prim_skip_dynamic=1"].

Definition trans_pir_envs : list string :=
  ["GLOG_v=1"; "FLAGS_enable_pir_in_executor=true"].

(** Lines 1-8. *)
Definition TEST_PRIM_PURE_PIR_CASES : string :=
  cmake.set
    ["test_prim_program"; "test_prim_simpnet"; "test_prim_custom_vjp";
     "test_prim_jit"; "test_pir_prim_flags"; "test_sink_decomp";
     "test_prim_dynamic"].

(** The whole file: the tests it registers, in order, given the entries of
    [CMAKE_CURRENT_SOURCE_DIR]. *)
Definition CMakeLists (entries : list string) : list py_test :=
  (* lines 10-19 *)
  let pure_tests :=
    cmake.foreach (cmake.unquoted TEST_PRIM_PURE_PIR_CASES) (fun target =>
      py_test_modules target [target] pure_pir_envs) in
  (* lines 21-24 *)
  let TEST_PRIM_TRANS_PIR_CASES := cmake.file_GLOB entries "test_*.py" in
  (* lines 25-26 *)
  let TEST_PRIM_TRANS_PIR_CASES :=
    cmake.string_REPLACE ".py" "" TEST_PRIM_TRANS_PIR_CASES in
  (* line 28 *)
  let TEST_PRIM_TRANS_PIR_CASES :=
    cmake.list_REMOVE_ITEM TEST_PRIM_TRANS_PIR_CASES
      (cmake.unquoted TEST_PRIM_PURE_PIR_CASES) in
  (* lines 30-33 *)
  let trans_tests :=
    cmake.foreach (cmake.unquoted TEST_PRIM_TRANS_PIR_CASES) (fun target =>
      py_test_modules target [target] trans_pir_envs) in
  pure_tests ++ trans_tests.

(** The characters of a Python identifier. *)
Definition is_identifier_char (c : ascii) : bool :=
  let n := nat_of_ascii c in
  (48 <=? n) && (n <=? 57)          (* 0-9 *)
  || (65 <=? n) && (n <=? 90)       (* A-Z *)
  || (97 <=? n) && (n <=? 122)      (* a-z *)
  || (n =? 95).                     (* _ *)

Fixpoint all_identifier_chars (s : string) : bool :=
  match s with
  | EmptyString => true
  | String c s' => is_identifier_char c && all_identifier_chars s'
  end.

(** A module name: a non-empty run of identifier characters. *)
Definition is_module_name (m : string) : bool :=
  match m with
  | EmptyString => false
  | _ => all_identifier_chars m
  end.

(** The stem of a file name that ends in [.py]. *)
Fixpoint strip_py (file : string) : option string :=
  match file with
  | EmptyString => None
  | String c rest =>
      if decide (file = ".py") then Some EmptyString
      else match strip_py rest with
           | Some stem => Some (String c stem)
           | None => None
           end
  end.

(** The file of a Python module: [<module name>.py]. *)
Definition is_module_file (file : string) : bool :=
  match strip_py file with
  | Some stem => is_module_name stem
  | None => false
  end.

(** The stem of a file name, empty when the name does not end in [.py]. *)
Definition stem_of (file : string) : string :=
  default "" (strip_py file).

(** The registrations the two loops make for a target. *)
Definition pure_pir_test (target : string) : py_test :=
  {| TARGET_NAME := target; MODULES := [target]; ENVS := pure_pir_envs |}.

Definition trans_pir_test (target : string) : py_test :=
  {| TARGET_NAME := target; MODULES := [target]; ENVS := trans_pir_envs |}.

(** The directory as the theorems take it: no name twice, and every name the
    globbing expression [test_*.py] selects is the file of a Python module. *)
Definition module_directory (entries : list string) : Prop :=
  NoDup entries
  ∧ Forall (λ file, cmake.glob_match "test_*.py" file = true →
                    is_module_file file = true) entries.

(** A directory for the examples. *)
Definition sample_entries : list string :=
  ["CMakeLists.txt"; "test_decomp_op.py"; "test_prim_jit.py";
   "test_sink_decomp.py"; "test_vjp_prim.py"; "utils.py"].

End pir_prim.

(* ===================================================================== *)
(** * The oneDNN C++ test list (CMake) *)
(* ===================================================================== *)

Module mkldnn_tests.

(** What the configuration step fixes before the file is read. *)
Record options := {
  PADDLE_LIB_NAME : string;
  WITH_GPU : bool;
  WITH_ROCM : bool;
  WITH_TESTING : bool;
  WITH_ONNXRUNTIME : bool;
  WIN32 : bool
}.

(** The calls the file makes to the framework's CMake helpers, with their
    keyword arguments ([SRCS], [DEPS]) already sorted out. *)
Inductive declaration :=
| cc_test (TARGET_NAME : string) (SRCS DEPS : list string)
| paddle_test (TARGET_NAME : string) (SRCS : list string)
| copy_onnx (TARGET_NAME : string).

Definition declared_name (d : declaration) : string :=
  match d with
  | cc_test n _ _ | paddle_test n _ | copy_onnx n => n
  end.

Definition declared_deps (d : declaration) : list string :=
  match d with
  | cc_test _ _ deps => deps
  | paddle_test _ _ | copy_onnx _ => []
  end.

(** The whole file, lines 1-100. *)
Definition CMakeLists (o : options) : list declaration :=
  let paddle_lib := PADDLE_LIB_NAME o in
  [ cc_test "test_mkldnn_op_inplace" ["test_mkldnn_op_inplace.cc"]
      ["executor"; "op_registry"; "elementwise_add_op"; "activation_op";
       "phi"; "common"; "scope"; "device_context"; "enforce";
       "generated_static_op"];
    cc_test "test_mkldnn_cpu_quantize_pass"
      ["test_mkldnn_cpu_quantize_pass.cc"]
      ["executor"; "op_registry"; "activation_op";
       "conv_activation_mkldnn_fuse_pass"; "cpu_quantize_placement_pass";
       "cpu_quantize_pass"; "phi"; "common"; "scope"; "device_context"];
    cc_test "test_conv_mkldnn_nhwc" ["test_conv_mkldnn_nhwc.cc"]
      ["executor"; "op_registry"; "depthwise_conv"; "tensor"; "phi";
       "common"; "scope"; "device_context"; "enforce";
       "generated_static_op"] ]
  ++
  let TEST_MKLDNN_CACHING_DEPS :=
    cmake.set
      ["op_registry"; "elementwise_mul_op"; "elementwise_add_op";
       "activation_op"; "phi"; "common"; "scope"; "device_context";
       "enforce"; "generated_static_op"] in
  let TEST_MKLDNN_CACHING_DEPS :=
    if WITH_GPU o || WITH_ROCM o
    then cmake.set
           (cmake.unquoted TEST_MKLDNN_CACHING_DEPS ++ ["depthwise_conv"])
    else TEST_MKLDNN_CACHING_DEPS in
  [ cc_test "test_mkldnn_caching" ["test_mkldnn_caching.cc"]
      (cmake.unquoted TEST_MKLDNN_CACHING_DEPS) ]
  ++ (if WITH_TESTING o
      then [ paddle_test "test_mkldnn_op_nhwc" ["test_mkldnn_op_nhwc.cc"] ]
      else [])
  ++
  [ cc_test "test_mkldnn_pool_adaptive_op"
      ["test_mkldnn_pool_adaptive_op.cc"]
      ["fleet_executor"; "conditional_block_op"; "executor"; "op_registry";
       "generated_static_op"; "generated_op"; "phi"; "common"; "scope";
       "device_context"; "enforce"];
    cc_test "test_mkldnn_squeeze" ["test_mkldnn_squeeze.cc"]
      ["fleet_executor"; "conditional_block_op"; "executor"; "op_registry";
       "generated_static_op"; "generated_op"; "phi"; "scope";
       "device_context"; "enforce"] ]
  ++ (if WITH_ONNXRUNTIME o && WIN32 o
      then [ copy_onnx "test_mkldnn_op_nhwc" ]
      else []).

(** [cc_test] and [paddle_test] add a target; [copy_onnx] adds a step to a
    target that exists. *)
Definition adds_target (d : declaration) : bool :=
  match d with
  | cc_test _ _ _ | paddle_test _ _ => true
  | copy_onnx _ => false
  end.

(** The names of the targets the file adds, in order. *)
Definition added_targets (o : options) : list string :=
  declared_name <$> filter (λ d, adds_target d = true) (CMakeLists o).

End mkldnn_tests.

(* ===================================================================== *)
(** * namespace paddle::dialect: manual_api.h *)
(* ===================================================================== *)

Module dialect.

(** A parameter of a prototype: type, name, default argument if any. *)
Record parameter_decl := {
  param_type : string;
  param_name : string;
  param_default : option string
}.

(** A function declaration at namespace scope.  [body] is the compound
    statement of a definition; a prototype has none. *)
Record function_decl := {
  return_type : string;
  name : string;
  parameters : list parameter_decl;
  body : option string
}.

Definition param (ty nm : string) : parameter_decl :=
  {| param_type := ty; param_name := nm; param_default := None |}.

Definition param_with_default (ty nm dflt : string) : parameter_decl :=
  {| param_type := ty; param_name := nm; param_default := Some dflt |}.

Definition prototype (ret nm : string) (ps : list parameter_decl)
  : function_decl :=
  {| return_type := ret; name := nm; parameters := ps; body := None |}.

(** manual_api.h, lines 26-86, in order. *)
Definition manual_api_h : list function_decl :=
  [ prototype "pir::OpResult" "builtin_combine"
      [param "const std::vector<pir::Value>&" "x"];
    prototype "std::vector<pir::OpResult>" "add_n_grad"
      [param "const std::vector<pir::Value>&" "inputs";
       param "const pir::Value&" "out_grad"];
    prototype "pir::OpResult" "zeros_like"
      [param "const pir::Value&" "x";
       param_with_default "phi::DataType" "dtype" "phi::DataType::UNDEFINED";
       param_with_default "const Place&" "place" "{}"];
    prototype "pir::OpResult" "parameter"
      [param "const std::string&" "name"];
    prototype "void" "set_parameter"
      [param "const pir::Value&" "parameter";
       param "const std::string&" "name"];
    prototype "pir::OpResult" "embedding_grad"
      [param "const pir::Value&" "x";
       param "const pir::Value&" "weight";
       param "const pir::Value&" "out_grad";
       param_with_default "int64_t" "padding_idx" "-1";
       param_with_default "bool" "sparse" "false"];
    prototype "pir::OpResult" "split_with_num_grad"
      [param "const std::vector<pir::Value>&" "out_grad";
       param "int" "axis"];
    prototype "pir::OpResult" "split_with_num_grad"
      [param "const std::vector<pir::Value>&" "out_grad";
       param "const pir::Value&" "axis"];
    prototype "pir::OpResult" "ones"
      [param "const std::vector<int64_t>&" "shape";
       param_with_default "phi::DataType" "dtype" "phi::DataType::FLOAT32";
       param_with_default "const Place&" "place" "phi::CPUPlace()"];
    prototype "pir::OpResult" "ones_like"
      [param "pir::Value" "x_";
       param_with_default "phi::DataType" "dtype" "phi::DataType::UNDEFINED";
       param_with_default "const Place&" "place" "{}"];
    prototype "pir::OpResult" "zeros"
      [param "const std::vector<int64_t>&" "shape";
       param_with_default "phi::DataType" "dtype" "phi::DataType::FLOAT32";
       param_with_default "const Place&" "place" "phi::CPUPlace()"];
    prototype "pir::OpResult" "create_array"
      [param "phi::DataType" "dtype"];
    prototype "pir::OpResult" "create_array_like"
      [param "pir::Value" "input"; param "float" "value"];
    prototype "pir::OpResult" "array_length"
      [param "pir::Value" "x"];
    prototype "pir::OpResult" "array_read"
      [param "pir::Value" "array"; param "pir::Value" "i"];
    prototype "pir::OpResult" "array_write_"
      [param "pir::Value" "array"; param "pir::Value" "x";
       param "pir::Value" "i"];
    prototype "std::tuple<pir::OpResult, pir::OpResult>" "array_to_tensor"
      [param "pir::Value" "x"; param "int" "axis";
       param "bool" "use_stack"];
    prototype "pir::OpResult" "tensor_to_array"
      [param "pir::Value" "x"; param "pir::Value" "out_grad";
       param "int" "axis"; param "bool" "use_stack"];
    prototype "pir::OpResult" "add_n_array"
      [param "const std::vector<pir::Value>&" "inputs"];
    prototype "pir::OpResult" "slice_array_dense"
      [param "pir::Value" "input"; param "pir::Value" "starts"];
    prototype "pir::OpResult" "assign"
      [param "const pir::Value&" "x"] ].

(** The function definitions (declarations with a body) of the other C++
    file, view_grad_kernel.cc: the two kernel templates of namespace [phi].
    The bodies are the ones modelled in module [phi]. *)
Definition view_grad_kernel_cc : list function_decl :=
  [ {| return_type := "void"; name := "ViewShapeGradKernel";
       parameters :=
         [param "const Context&" "dev_ctx";
          param "const DenseTensor&" "input";
          param "const DenseTensor&" "out_grad";
          param "const std::vector<int64_t>&" "dims";
          param "DenseTensor*" "input_grad"];
       body := Some "ViewShapeKernel<Context>(dev_ctx, out_grad, common::vectorize<int64_t>(input.dims()), input_grad);" |};
    {| return_type := "void"; name := "ViewDtypeGradKernel";
       parameters :=
         [param "const Context&" "dev_ctx";
          param "const DenseTensor&" "input";
          param "const DenseTensor&" "out_grad";
          param "DataType" "dtype";
          param "DenseTensor*" "input_grad"];
       body := Some "ViewDtypeKernel<Context>(dev_ctx, out_grad, input.dtype(), input_grad);" |} ].

(** Every C++ function declaration of the source files; the two CMake files
    declare none. *)
Definition source_declarations : list function_decl :=
  manual_api_h ++ view_grad_kernel_cc.

(** The declarations of a name that come with a body. *)
Definition definitions_of (nm : string) (decls : list function_decl)
  : list function_decl :=
  filter (λ d, name d = nm ∧ is_Some (body d)) decls.

(** The names a file declares, each once, in order of first declaration. *)
Definition declared_names (decls : list function_decl) : list string :=
  remove_dups (name <$> decls).

End dialect.

(* ===================================================================== *)
(** * Theorems: the view gradient kernels *)
(* ===================================================================== *)

Section ViewGradFacts.
Import phi.
Context `{TensorCore} {Context : Type} `{!ViewKernel Context}.

(** The gradient kernels start by reading the input object. *)
Lemma ViewShapeGradKernel_unfold dev_ctx input out_grad dims input_grad s :
  ViewShapeGradKernel dev_ctx input out_grad dims input_grad s =
  match s !! input with
  | Some input_obj =>
      ViewShapeKernel dev_ctx out_grad
        (vectorize (DenseTensor_dims input_obj)) input_grad s
  | None => Undefined
  end.
Proof.
  unfold ViewShapeGradKernel, bind, deref.
  destruct (s !! input); reflexivity.
Qed.

Lemma ViewDtypeGradKernel_unfold dev_ctx input out_grad dtype input_grad s :
  ViewDtypeGradKernel dev_ctx input out_grad dtype input_grad s =
  match s !! input with
  | Some input_obj =>
      ViewDtypeKernel dev_ctx out_grad (DenseTensor_dtype input_obj)
        input_grad s
  | None => Undefined
  end.
Proof.
  unfold ViewDtypeGradKernel, bind, deref.
  destruct (s !! input); reflexivity.
Qed.

(** C1.  Whatever the device context, the references [input], [out_grad] and
    [input_grad], the [dims] argument and the store in which [input] is a
    live object: [ViewShapeGradKernel(dev_ctx, input, out_grad, dims,
    input_grad)] ends exactly as the forward kernel
    [ViewShapeKernel(dev_ctx, out_grad, vectorize(input.dims()), input_grad)]
    does (same exception, or same resulting store). *)
Theorem ViewShapeGradKernel_is_forward_view
  dev_ctx input out_grad dims input_grad (s : Store) input_obj :
  s !! input = Some input_obj ->
  ViewShapeGradKernel dev_ctx input out_grad dims input_grad s =
  forward_view_with_input_dims dev_ctx input_obj out_grad input_grad s.
Proof.
  intros Hin.
  rewrite ViewShapeGradKernel_unfold, Hin.
  reflexivity.
Qed.

(** C2.  Whatever the device context, the references, the [dtype] argument
    and the store in which [input] is a live object:
    [ViewDtypeGradKernel(dev_ctx, input, out_grad, dtype, input_grad)] ends
    exactly as the forward kernel
    [ViewDtypeKernel(dev_ctx, out_grad, input.dtype(), input_grad)] does. *)
Theorem ViewDtypeGradKernel_is_forward_view
  dev_ctx input out_grad dtype input_grad (s : Store) input_obj :
  s !! input = Some input_obj ->
  ViewDtypeGradKernel dev_ctx input out_grad dtype input_grad s =
  forward_view_with_input_dtype dev_ctx input_obj out_grad input_grad s.
Proof.
  intros Hin.
  rewrite ViewDtypeGradKernel_unfold, Hin.
  reflexivity.
Qed.

(** C3.  If the forward kernel [ViewShapeKernel] always returns with the
    object behind its output pointer having the extents it was given, then
    for all live [input], [out_grad] and [input_grad] and every [dims]
    argument, [ViewShapeGradKernel] returns and the object behind
    [input_grad] has the extents of [input.dims()]; the shapes themselves are
    equal as soon as [vectorize] tells shapes apart. *)
Theorem ViewShapeGradKernel_restores_input_dims :
  forward_view_sets_dims ->
  forall dev_ctx input out_grad dims input_grad (s : Store) input_obj,
    s !! input = Some input_obj ->
    is_Some (s !! out_grad) ->
    is_Some (s !! input_grad) ->
    exists (s' : Store) (grad_obj : DenseTensor),
      ViewShapeGradKernel dev_ctx input out_grad dims input_grad s
        = Returns tt s'
      /\ s' !! input_grad = Some grad_obj
      /\ vectorize (DenseTensor_dims grad_obj)
         = vectorize (DenseTensor_dims input_obj)
      /\ (Inj (=) (=) vectorize ->
          DenseTensor_dims grad_obj = DenseTensor_dims input_obj).
Proof.
  intros Hfwd dev_ctx input out_grad dims input_grad s input_obj
    Hin Hout Hgrad.
  destruct (Hfwd dev_ctx out_grad (vectorize (DenseTensor_dims input_obj))
              input_grad s Hout Hgrad) as (s' & grad_obj & Hrun & Hlook & Hdims).
  exists s', grad_obj.
  rewrite ViewShapeGradKernel_unfold, Hin.
  repeat split; try assumption.
  intros Hinj. apply Hinj. exact Hdims.
Qed.

(** The same with the forward kernel allowed to throw: whenever the gradient
    kernel returns, the object behind [input_grad] has the extents of
    [input.dims()]. *)
Lemma ViewShapeGradKernel_dims_post :
  forward_view_dims_post ->
  forall dev_ctx input out_grad dims input_grad (s s' : Store) input_obj,
    s !! input = Some input_obj ->
    ViewShapeGradKernel dev_ctx input out_grad dims input_grad s
      = Returns tt s' ->
    exists grad_obj : DenseTensor,
      s' !! input_grad = Some grad_obj
      /\ vectorize (DenseTensor_dims grad_obj)
         = vectorize (DenseTensor_dims input_obj).
Proof.
  intros Hpost dev_ctx input out_grad dims input_grad s s' input_obj Hin Hrun.
  rewrite ViewShapeGradKernel_unfold, Hin in Hrun.
  exact (Hpost _ _ _ _ _ _ Hrun).
Qed.

(** When [input_grad] is the very object [input], the shape read back from
    [input] after the call is the one it had before. *)
Lemma ViewShapeGradKernel_in_place :
  forward_view_dims_post ->
  forall dev_ctx input out_grad dims (s s' : Store) input_obj,
    s !! input = Some input_obj ->
    ViewShapeGradKernel dev_ctx input out_grad dims input s = Returns tt s' ->
    exists input_obj' : DenseTensor,
      s' !! input = Some input_obj'
      /\ vectorize (DenseTensor_dims input_obj')
         = vectorize (DenseTensor_dims input_obj).
Proof.
  intros Hpost dev_ctx input out_grad dims s s' input_obj Hin Hrun.
  exact (ViewShapeGradKernel_dims_post Hpost _ _ _ _ _ _ _ _ Hin Hrun).
Qed.

(** C4.  Two calls of [ViewShapeGradKernel] from the same store, with the
    same [dev_ctx], [out_grad] and [input_grad], whose [input] objects have
    equal dims (and may differ in everything else) and whose [dims]
    arguments are arbitrary, end in the same way: same exception or same
    resulting store, hence the same [input_grad].  The [dims] parameter is
    not read. *)
Theorem ViewShapeGradKernel_input_dims_only
  dev_ctx out_grad input_grad (s : Store)
  input1 input2 dims1 dims2 input_obj1 input_obj2 :
  s !! input1 = Some input_obj1 ->
  s !! input2 = Some input_obj2 ->
  DenseTensor_dims input_obj1 = DenseTensor_dims input_obj2 ->
  ViewShapeGradKernel dev_ctx input1 out_grad dims1 input_grad s =
  ViewShapeGradKernel dev_ctx input2 out_grad dims2 input_grad s.
Proof.
  intros H1 H2 Hdims.
  rewrite !ViewShapeGradKernel_unfold, H1, H2, Hdims.
  reflexivity.
Qed.

(** C5.  Two calls of [ViewDtypeGradKernel] from the same store, with the
    same [dev_ctx], [out_grad] and [input_grad], whose [input] objects have
    equal dtype (and may differ in everything else) and whose [dtype]
    arguments are arbitrary, end in the same way: same exception or same
    resulting store, hence the same [input_grad].  The [dtype] parameter is
    not read. *)
Theorem ViewDtypeGradKernel_input_dtype_only
  dev_ctx out_grad input_grad (s : Store)
  input1 input2 dtype1 dtype2 input_obj1 input_obj2 :
  s !! input1 = Some input_obj1 ->
  s !! input2 = Some input_obj2 ->
  DenseTensor_dtype input_obj1 = DenseTensor_dtype input_obj2 ->
  ViewDtypeGradKernel dev_ctx input1 out_grad dtype1 input_grad s =
  ViewDtypeGradKernel dev_ctx input2 out_grad dtype2 input_grad s.
Proof.
  intros H1 H2 Hdt.
  rewrite !ViewDtypeGradKernel_unfold, H1, H2, Hdt.
  reflexivity.
Qed.

(** The two calls of C4 taken in two different stores: if the forward
    kernel is local, stores that agree on the gradient and on the output slot
    give the same [input_grad], whatever else they hold. *)
Lemma ViewShapeGradKernel_input_dims_only_local
  dev_ctx out_grad input_grad (s1 s2 : Store)
  input1 input2 dims1 dims2 input_obj1 input_obj2 :
  local_kernel (ViewShapeKernel dev_ctx) ->
  s1 !! input1 = Some input_obj1 ->
  s2 !! input2 = Some input_obj2 ->
  DenseTensor_dims input_obj1 = DenseTensor_dims input_obj2 ->
  s1 !! out_grad = s2 !! out_grad ->
  s1 !! input_grad = s2 !! input_grad ->
  result_at input_grad
    (ViewShapeGradKernel dev_ctx input1 out_grad dims1 input_grad s1) =
  result_at input_grad
    (ViewShapeGradKernel dev_ctx input2 out_grad dims2 input_grad s2).
Proof.
  intros Hlocal H1 H2 Hdims Hout Hgrad.
  rewrite !ViewShapeGradKernel_unfold, H1, H2, Hdims.
  now apply Hlocal.
Qed.

(** The same for C5. *)
Lemma ViewDtypeGradKernel_input_dtype_only_local
  dev_ctx out_grad input_grad (s1 s2 : Store)
  input1 input2 dtype1 dtype2 input_obj1 input_obj2 :
  local_kernel (ViewDtypeKernel dev_ctx) ->
  s1 !! input1 = Some input_obj1 ->
  s2 !! input2 = Some input_obj2 ->
  DenseTensor_dtype input_obj1 = DenseTensor_dtype input_obj2 ->
  s1 !! out_grad = s2 !! out_grad ->
  s1 !! input_grad = s2 !! input_grad ->
  result_at input_grad
    (ViewDtypeGradKernel dev_ctx input1 out_grad dtype1 input_grad s1) =
  result_at input_grad
    (ViewDtypeGradKernel dev_ctx input2 out_grad dtype2 input_grad s2).
Proof.
  intros Hlocal H1 H2 Hdt Hout Hgrad.
  rewrite !ViewDtypeGradKernel_unfold, H1, H2, Hdt.
  now apply Hlocal.
Qed.

End ViewGradFacts.

(** ** The kernels on the example backend *)

Section ViewGradExamples.
Import phi phi_example.

(** The shape gradient of object 1 through the gradient 2, written to slot 3:
    slot 3 views the buffer of the gradient with the shape of the input, and
    the [dims] argument [[7]] leaves no trace. *)
Example ViewShapeGradKernel_run :
  ViewShapeGradKernel tt 1%positive 2%positive [7]%Z 3%positive store0 =
  Returns tt
    (<[3%positive := {| extents := [2; 3]%Z; element_type := INT64;
                        holder := 20 |}]> store0).
Proof. reflexivity. Qed.

Example ViewDtypeGradKernel_run :
  ViewDtypeGradKernel tt 1%positive 2%positive UNDEFINED 3%positive store0 =
  Returns tt
    (<[3%positive := {| extents := [6]%Z; element_type := FLOAT32;
                        holder := 20 |}]> store0).
Proof. reflexivity. Qed.

(** In place: [input_grad] is the object [input] itself.  Its shape is read
    before the forward kernel overwrites it, so it keeps its shape and now
    views the buffer of the gradient. *)
Example ViewShapeGradKernel_run_in_place :
  ViewShapeGradKernel tt 1%positive 2%positive [7]%Z 1%positive store0 =
  Returns tt
    (<[1%positive := {| extents := [2; 3]%Z; element_type := INT64;
                        holder := 20 |}]> store0).
Proof. reflexivity. Qed.

(** A reference to no object: the call has no defined outcome. *)
Example ViewShapeGradKernel_dangling :
  ViewShapeGradKernel tt 9%positive 2%positive [7]%Z 3%positive store0 =
  Undefined.
Proof. reflexivity. Qed.

(** The example forward kernel sets the extents it is given. *)
Lemma cpu_view_sets_dims : forward_view_sets_dims (Context := unit).
Proof.
  intros [] x dims out s [t Hx] _.
  exists (<[out := {| extents := dims; element_type := element_type t;
                      holder := holder t |}]> s).
  eexists. split; [| split].
  - change (view_shape tt x dims out s = Returns tt
              (<[out := {| extents := dims; element_type := element_type t;
                           holder := holder t |}]> s)).
    unfold view_shape.
    match goal with
    | |- match ?l with _ => _ end = _ => change l with (s !! x)
    end.
    rewrite Hx. reflexivity.
  - apply lookup_insert_eq.
  - reflexivity.
Qed.

Lemma ViewShapeGradKernel_is_forward_view_witness :
  store0 !! 1%positive = Some obj1
  /\ ViewShapeGradKernel tt 1%positive 2%positive [7]%Z 3%positive store0 =
     forward_view_with_input_dims tt obj1 2%positive 3%positive store0.
Proof.
  split; [reflexivity |].
  apply (@ViewShapeGradKernel_is_forward_view core unit cpu_view
           tt 1%positive 2%positive [7]%Z 3%positive store0 obj1).
  reflexivity.
Defined.

Lemma ViewDtypeGradKernel_is_forward_view_witness :
  store0 !! 1%positive = Some obj1
  /\ ViewDtypeGradKernel tt 1%positive 2%positive INT64 3%positive store0 =
     forward_view_with_input_dtype tt obj1 2%positive 3%positive store0.
Proof.
  split; [reflexivity |].
  apply (@ViewDtypeGradKernel_is_forward_view core unit cpu_view
           tt 1%positive 2%positive INT64 3%positive store0 obj1).
  reflexivity.
Defined.

Lemma ViewShapeGradKernel_restores_input_dims_witness :
  exists (s' : Store) (grad_obj : tensor),
    ViewShapeGradKernel tt 1%positive 2%positive [7]%Z 3%positive store0
      = Returns tt s'
    /\ s' !! 3%positive = Some grad_obj
    /\ extents grad_obj = [2; 3]%Z
    /\ (Inj (=) (=) (fun d : list Z => d) -> extents grad_obj = [2; 3]%Z).
Proof.
  apply (@ViewShapeGradKernel_restores_input_dims core unit cpu_view
           cpu_view_sets_dims tt 1%positive 2%positive [7]%Z 3%positive store0 obj1).
  - reflexivity.
  - eexists. reflexivity.
  - eexists. reflexivity.
Defined.

Lemma ViewShapeGradKernel_input_dims_only_witness :
  store0 !! 1%positive = Some obj1
  /\ store0 !! 4%positive = Some obj4
  /\ extents obj1 = extents obj4
  /\ ViewShapeGradKernel tt 1%positive 2%positive [7]%Z 3%positive store0 =
     ViewShapeGradKernel tt 4%positive 2%positive [1; 1]%Z 3%positive store0.
Proof.
  split; [reflexivity | split; [reflexivity | split; [reflexivity |]]].
  apply (@ViewShapeGradKernel_input_dims_only core unit cpu_view
           tt 2%positive 3%positive store0 1%positive 4%positive
           [7]%Z [1; 1]%Z obj1 obj4); reflexivity.
Defined.

Lemma ViewDtypeGradKernel_input_dtype_only_witness :
  store0 !! 1%positive = Some obj1
  /\ store0 !! 5%positive = Some obj5
  /\ element_type obj1 = element_type obj5
  /\ ViewDtypeGradKernel tt 1%positive 2%positive INT64 3%positive store0 =
     ViewDtypeGradKernel tt 5%positive 2%positive UNDEFINED 3%positive store0.
Proof.
  split; [reflexivity | split; [reflexivity | split; [reflexivity |]]].
  apply (@ViewDtypeGradKernel_input_dtype_only core unit cpu_view
           tt 2%positive 3%positive store0 1%positive 5%positive
           INT64 UNDEFINED obj1 obj5); reflexivity.
Defined.

End ViewGradExamples.

(* ===================================================================== *)
(** * Theorems: CMake strings and lists *)
(* ===================================================================== *)

Section CMakeFacts.
Import cmake.

Lemma append_cons c (s t : string) : String c s +:+ t = String c (s +:+ t).
Proof. reflexivity. Qed.

Lemma append_nil_l (t : string) : "" +:+ t = t.
Proof. reflexivity. Qed.

Lemma append_assoc (a b c : string) : (a +:+ b) +:+ c = a +:+ (b +:+ c).
Proof.
  induction a as [|x a IH]; [reflexivity |].
  rewrite !append_cons. now rewrite IH.
Qed.

Lemma append_nil_r (a : string) : a +:+ "" = a.
Proof.
  induction a as [|x a IH]; [reflexivity |].
  rewrite append_cons. now rewrite IH.
Qed.

Lemma lacks_cons c d s :
  lacks c (String d s) = true <-> d <> c /\ lacks c s = true.
Proof.
  simpl. rewrite andb_true_iff, negb_true_iff, Ascii.eqb_neq. reflexivity.
Qed.

Lemma join_semicolon_cons x y l :
  join_semicolon (x :: y :: l) =
  x +:+ String semicolon (join_semicolon (y :: l)).
Proof. reflexivity. Qed.

Lemma split_semicolon_plain s :
  lacks semicolon s = true -> split_semicolon s = [s].
Proof.
  induction s as [|c s IH]; [reflexivity |].
  intros [Hc Hs]%lacks_cons. simpl.
  apply Ascii.eqb_neq in Hc. rewrite Hc, (IH Hs). reflexivity.
Qed.

Lemma split_semicolon_append s rest :
  lacks semicolon s = true ->
  split_semicolon (s +:+ String semicolon rest) = s :: split_semicolon rest.
Proof.
  induction s as [|c s IH]; [reflexivity |].
  intros [Hc Hs]%lacks_cons. rewrite append_cons. simpl.
  apply Ascii.eqb_neq in Hc. rewrite Hc, (IH Hs). reflexivity.
Qed.

Lemma split_join l :
  l <> [] -> Forall is_element l -> split_semicolon (join_semicolon l) = l.
Proof.
  induction l as [|x [|y l] IH]; intros Hne Hall.
  - congruence.
  - apply Forall_cons in Hall as [[_ Hx] _]. simpl.
    now apply split_semicolon_plain.
  - apply Forall_cons in Hall as [[_ Hx] Hall].
    rewrite join_semicolon_cons, split_semicolon_append by assumption.
    rewrite IH; [reflexivity | discriminate | assumption].
Qed.

Lemma join_nonempty l :
  l <> [] -> Forall is_element l -> join_semicolon l <> "".
Proof.
  destruct l as [|x [|y l]]; intros Hne Hall; [congruence | |];
    apply Forall_cons in Hall as [[Hx _] _].
  - exact Hx.
  - rewrite join_semicolon_cons. destruct x; [congruence | discriminate].
Qed.

Lemma filter_nonempty_elements l :
  Forall is_element l -> filter (λ piece : string, piece ≠ "") l = l.
Proof.
  induction 1 as [|x l [Hx _] _ IH]; [reflexivity |].
  rewrite filter_cons_True by assumption. now rewrite IH.
Qed.

Lemma list_elements_join l :
  Forall is_element l -> list_elements (join_semicolon l) = l.
Proof.
  intros Hall. unfold list_elements.
  destruct l as [|x l]; [reflexivity |].
  rewrite decide_False by (apply join_nonempty; [discriminate | assumption]).
  apply split_join; [discriminate | assumption].
Qed.

Lemma unquoted_join l :
  Forall is_element l -> unquoted (join_semicolon l) = l.
Proof.
  intros Hall. unfold unquoted.
  destruct l as [|x l]; [reflexivity |].
  rewrite split_join by (discriminate || assumption).
  now apply filter_nonempty_elements.
Qed.

Lemma prefix_append m rest : String.prefix m (m +:+ rest) = true.
Proof.
  induction m as [|c m IH]; [now destruct rest |].
  rewrite append_cons. simpl.
  destruct (ascii_dec c c); [exact IH | congruence].
Qed.

Lemma prefix_other p m c rest :
  c <> p -> String.prefix (String p m) (String c rest) = false.
Proof.
  intros Hc. simpl. destruct (ascii_dec p c); [congruence | reflexivity].
Qed.

Lemma REPLACE_from_skip u m r rest :
  REPLACE_from (String.length u) m r (u +:+ rest) = REPLACE_from 0 m r rest.
Proof.
  induction u as [|c u IH]; [reflexivity |].
  rewrite append_cons. simpl. exact IH.
Qed.

Lemma string_REPLACE_hit p m r rest :
  string_REPLACE (String p m) r (String p m +:+ rest) =
  r +:+ string_REPLACE (String p m) r rest.
Proof.
  unfold string_REPLACE.
  rewrite append_cons. cbn [REPLACE_from].
  rewrite <- append_cons, prefix_append.
  replace (String.length (String p m) - 1) with (String.length m)
    by (simpl; lia).
  now rewrite REPLACE_from_skip.
Qed.

Lemma string_REPLACE_plain p m r s rest :
  lacks p s = true ->
  string_REPLACE (String p m) r (s +:+ rest) =
  s +:+ string_REPLACE (String p m) r rest.
Proof.
  unfold string_REPLACE.
  induction s as [|c s IH]; [reflexivity |].
  intros [Hc Hs]%lacks_cons.
  rewrite !append_cons.
  cbn [REPLACE_from]. rewrite prefix_other by assumption.
  now rewrite (IH Hs).
Qed.

Lemma string_REPLACE_semicolon p m r rest :
  p <> semicolon ->
  string_REPLACE (String p m) r (String semicolon rest) =
  String semicolon (string_REPLACE (String p m) r rest).
Proof.
  intros Hp.
  apply (string_REPLACE_plain p m r (String semicolon "") rest).
  apply lacks_cons. split; [congruence | reflexivity].
Qed.

(** Removing an extension from every element of a list value. *)
Lemma string_REPLACE_extension p ext stems :
  p <> semicolon ->
  Forall (λ s, lacks p s = true) stems ->
  string_REPLACE (String p ext) ""
    (join_semicolon ((λ s, s +:+ String p ext) <$> stems)) =
  join_semicolon stems.
Proof.
  intros Hp.
  induction stems as [|x [|y l] IH]; intros Hall.
  - reflexivity.
  - apply Forall_cons in Hall as [Hx _].
    change (string_REPLACE (String p ext) "" (x +:+ String p ext) = x).
    rewrite <- (append_nil_r (x +:+ String p ext)), append_assoc.
    rewrite string_REPLACE_plain, string_REPLACE_hit by assumption.
    rewrite append_nil_l. apply append_nil_r.
  - apply Forall_cons in Hall as [Hx Hall].
    rewrite join_semicolon_cons.
    change ((λ s, s +:+ String p ext) <$> x :: y :: l)
      with ((x +:+ String p ext) :: (y +:+ String p ext)
              :: ((λ s, s +:+ String p ext) <$> l)).
    rewrite join_semicolon_cons.
    change ((y +:+ String p ext) :: ((λ s, s +:+ String p ext) <$> l))
      with ((λ s, s +:+ String p ext) <$> y :: l).
    rewrite append_assoc.
    rewrite string_REPLACE_plain, string_REPLACE_hit by assumption.
    rewrite append_nil_l, string_REPLACE_semicolon by assumption.
    now rewrite (IH Hall).
Qed.

Lemma foreach_singleton {A} (f : string -> A) items :
  foreach items (λ x, [f x]) = f <$> items.
Proof.
  unfold foreach. induction items as [|x l IH]; [reflexivity |].
  simpl. now rewrite IH.
Qed.

Lemma Forall_filter_keep {A} (P Q : A -> Prop) `{!forall x, Decision (P x)}
  (l : list A) :
  Forall Q l -> Forall Q (filter P l).
Proof.
  rewrite !Forall_forall. intros Hall x [_ Hin]%list_elem_of_filter.
  now apply Hall.
Qed.

End CMakeFacts.

(* ===================================================================== *)
(** * Theorems: the pir_prim test registrations *)
(* ===================================================================== *)

Section PirPrimFacts.
Import cmake pir_prim.

Lemma all_identifier_chars_lacks c s :
  is_identifier_char c = false ->
  all_identifier_chars s = true -> lacks c s = true.
Proof.
  intros Hc. induction s as [|d s IH]; [reflexivity |].
  simpl. intros [Hd Hs]%andb_true_iff.
  apply andb_true_iff. split; [| exact (IH Hs)].
  apply negb_true_iff, Ascii.eqb_neq. congruence.
Qed.

Lemma is_module_name_chars m :
  is_module_name m = true -> m <> "" /\ all_identifier_chars m = true.
Proof. destruct m; [discriminate | intros Hm; split; [discriminate | exact Hm]]. Qed.

Lemma module_name_is_element m : is_module_name m = true -> is_element m.
Proof.
  intros [Hne Hchars]%is_module_name_chars. split; [exact Hne |].
  now apply all_identifier_chars_lacks.
Qed.

Lemma module_name_lacks_dot m :
  is_module_name m = true -> lacks "."%char m = true.
Proof.
  intros [_ Hchars]%is_module_name_chars.
  now apply all_identifier_chars_lacks.
Qed.

Lemma strip_py_Some file stem :
  strip_py file = Some stem -> file = stem +:+ ".py".
Proof.
  revert stem. induction file as [|c rest IH]; intros stem; [discriminate |].
  cbn [strip_py]. destruct (decide (String c rest = ".py")) as [-> | _].
  - intros [= <-]. reflexivity.
  - destruct (strip_py rest) as [stem' |]; [| discriminate].
    intros [= <-]. rewrite append_cons. f_equal. now apply IH.
Qed.

Lemma module_file_stem file :
  is_module_file file = true ->
  is_module_name (stem_of file) = true /\ file = stem_of file +:+ ".py".
Proof.
  unfold is_module_file, stem_of.
  destruct (strip_py file) as [stem |] eqn:Hstrip; [| discriminate].
  intros Hname. split; [exact Hname | now apply strip_py_Some].
Qed.

Lemma pure_pir_cases :
  unquoted TEST_PRIM_PURE_PIR_CASES =
  ["test_prim_program"; "test_prim_simpnet"; "test_prim_custom_vjp";
   "test_prim_jit"; "test_pir_prim_flags"; "test_sink_decomp";
   "test_prim_dynamic"].
Proof. reflexivity. Qed.

(** The files the globbing expression selects, and their stems. *)
Lemma globbed_files_stems entries :
  module_directory entries ->
  let files := filter (λ name, glob_match "test_*.py" name = true) entries in
  files = (λ s, s +:+ ".py") <$> (stem_of <$> files)
  /\ Forall (λ m, is_module_name m = true) (stem_of <$> files)
  /\ NoDup (stem_of <$> files).
Proof.
  intros [Hnodup Hall] files.
  assert (Hfiles : Forall (λ f, is_module_file f = true) files).
  { apply Forall_forall. intros f [Hglob Hin]%list_elem_of_filter.
    rewrite Forall_forall in Hall. now apply Hall. }
  assert (Hnd : NoDup files) by now apply NoDup_filter.
  clearbody files. clear Hall Hnodup entries.
  split; [| split].
  - induction Hfiles as [|f l Hf _ IH]; [reflexivity |].
    rewrite !fmap_cons. apply NoDup_cons in Hnd as [_ Hnd].
    rewrite <- (IH Hnd). f_equal. now apply module_file_stem.
  - apply Forall_fmap. eapply Forall_impl; [exact Hfiles |].
    intros f Hf. now apply module_file_stem.
  - apply NoDup_fmap_2_strong; [| exact Hnd].
    intros f1 f2 H1 H2 Heq. rewrite Forall_forall in Hfiles.
    destruct (module_file_stem f1 (Hfiles _ H1)) as [_ E1].
    destruct (module_file_stem f2 (Hfiles _ H2)) as [_ E2].
    rewrite E1, E2. f_equal. exact Heq.
Qed.

(** The file as two maps: one registration per pure case, then one per
    globbed module that is not a pure case. *)
Lemma CMakeLists_registrations entries :
  module_directory entries ->
  CMakeLists entries =
  (pure_pir_test <$> unquoted TEST_PRIM_PURE_PIR_CASES)
  ++ (trans_pir_test <$>
        filter (λ m, m ∉ unquoted TEST_PRIM_PURE_PIR_CASES)
          (stem_of <$>
             filter (λ name, glob_match "test_*.py" name = true) entries)).
Proof.
  intros Hdir.
  destruct (globbed_files_stems entries Hdir) as (Hfiles & Hnames & _).
  unfold CMakeLists, file_GLOB, list_REMOVE_ITEM. cbv zeta.
  set (files := filter (λ name, glob_match "test_*.py" name = true) entries)
    in *.
  set (pure := unquoted TEST_PRIM_PURE_PIR_CASES).
  change (foreach pure (λ target, py_test_modules target [target] pure_pir_envs))
    with (foreach pure (λ target, [pure_pir_test target])).
  rewrite foreach_singleton. f_equal.
  assert (Helems : Forall is_element (stem_of <$> files)).
  { eapply Forall_impl; [exact Hnames |]. apply module_name_is_element. }
  rewrite Hfiles at 1.
  rewrite (string_REPLACE_extension "."%char "py").
  - rewrite list_elements_join by exact Helems.
    rewrite unquoted_join by (now apply Forall_filter_keep).
    apply (foreach_singleton trans_pir_test).
  - discriminate.
  - eapply Forall_impl; [exact Hnames |]. apply module_name_lacks_dot.
Qed.

End PirPrimFacts.

Section PirPrimTheorem.
Import cmake pir_prim.

Lemma module_file_strip file :
  is_module_file file = true -> strip_py file = Some (stem_of file).
Proof.
  unfold is_module_file, stem_of.
  destruct (strip_py file); [reflexivity | discriminate].
Qed.

(** Looking a name up in a list of registrations made from distinct
    targets. *)
Lemma filter_registrations (mk : string -> py_test) (l : list string) m :
  (forall x, TARGET_NAME (mk x) = x) ->
  NoDup l ->
  filter (λ t, TARGET_NAME t = m) (mk <$> l) =
  if decide (m ∈ l) then [mk m] else [].
Proof.
  intros Hmk. induction 1 as [|x l Hx Hnd IH]; [reflexivity |].
  rewrite fmap_cons. destruct (decide (x = m)) as [-> | Hne].
  - rewrite filter_cons_True by apply Hmk.
    rewrite IH, decide_False by exact Hx.
    rewrite decide_True by apply list_elem_of_here. reflexivity.
  - rewrite filter_cons_False by (rewrite Hmk; exact Hne).
    rewrite IH. destruct (decide (m ∈ l)) as [Hin | Hout].
    + rewrite decide_True by (now apply list_elem_of_further). reflexivity.
    + rewrite decide_False; [reflexivity |].
      intros [? | ?]%elem_of_cons; congruence.
Qed.

Lemma names_of_registrations (mk : string -> py_test) (l : list string) :
  (forall x, TARGET_NAME (mk x) = x) ->
  TARGET_NAME <$> (mk <$> l) = l.
Proof.
  intros Hmk. induction l as [|x l IH]; [reflexivity |].
  rewrite !fmap_cons, Hmk, IH. reflexivity.
Qed.

(** C6.  In a directory whose [test_*.py] entries are the files of Python
    modules, every test module is registered exactly once: each of the seven
    targets of [TEST_PRIM_PURE_PIR_CASES] by one call with
    [FLAGS_enable_pir_api=true] and [FLAGS_prim_skip_dynamic=1]; every other
    module with a [test_*.py] file by one call with
    [FLAGS_enable_pir_in_executor=true]; nothing else is registered, no name
    is registered twice, and no name is registered under both
    environments. *)
Theorem pir_prim_modules_registered_once (entries : list string) :
  module_directory entries ->
  let tests := CMakeLists entries in
  let pure := unquoted TEST_PRIM_PURE_PIR_CASES in
  length pure = 7
  /\ (forall target, target ∈ pure ->
        filter (λ t, TARGET_NAME t = target) tests =
        py_test_modules target [target] pure_pir_envs)
  /\ (forall file stem,
        file ∈ entries -> glob_match "test_*.py" file = true ->
        strip_py file = Some stem -> stem ∉ pure ->
        filter (λ t, TARGET_NAME t = stem) tests =
        py_test_modules stem [stem] trans_pir_envs)
  /\ (forall t, t ∈ tests ->
        TARGET_NAME t ∈ pure
        \/ exists file, file ∈ entries
                        /\ glob_match "test_*.py" file = true
                        /\ strip_py file = Some (TARGET_NAME t))
  /\ NoDup (TARGET_NAME <$> tests)
  /\ ~ (exists t1 t2, t1 ∈ tests /\ t2 ∈ tests
                      /\ TARGET_NAME t1 = TARGET_NAME t2
                      /\ ENVS t1 = pure_pir_envs
                      /\ ENVS t2 = trans_pir_envs).
Proof.
  intros Hdir tests pure. subst tests.
  rewrite (CMakeLists_registrations entries Hdir). fold pure.
  destruct (globbed_files_stems entries Hdir) as (Hfiles & Hnames & Hnd).
  destruct Hdir as [_ Hall]. rewrite Forall_forall in Hall.
  set (files := filter (λ name, glob_match "test_*.py" name = true) entries)
    in *.
  set (trans := filter (λ m, m ∉ pure) (stem_of <$> files)).
  assert (Hpure_nd : NoDup pure).
  { subst pure. rewrite pure_pir_cases.
    repeat (apply NoDup_cons; split;
            [rewrite ?elem_of_cons, elem_of_nil; intuition discriminate |]).
    apply NoDup_nil_2. }
  assert (Htrans_nd : NoDup trans) by now apply NoDup_filter.
  assert (Htrans : forall m,
             m ∈ trans <-> (m ∉ pure) /\ m ∈ (stem_of <$> files)).
  { intros m. unfold trans. now rewrite list_elem_of_filter. }
  assert (Hstem : forall file stem,
             file ∈ entries -> glob_match "test_*.py" file = true ->
             strip_py file = Some stem -> stem ∈ (stem_of <$> files)).
  { intros file stem Hin Hglob Hstrip.
    apply list_elem_of_fmap. exists file. split.
    - unfold stem_of. now rewrite Hstrip.
    - apply list_elem_of_filter. now split. }
  repeat apply conj.
  - reflexivity.
  - intros target Hin. rewrite filter_app.
    rewrite !filter_registrations by (reflexivity || assumption).
    rewrite decide_True by exact Hin.
    rewrite decide_False by (rewrite Htrans; tauto). reflexivity.
  - intros file stem Hin Hglob Hstrip Hout. rewrite filter_app.
    rewrite !filter_registrations by (reflexivity || assumption).
    rewrite decide_False by exact Hout.
    rewrite decide_True by (apply Htrans; eauto). reflexivity.
  - intros t [Ht | Ht]%elem_of_app.
    + left. apply list_elem_of_fmap in Ht as (m & -> & Hm). exact Hm.
    + right. apply list_elem_of_fmap in Ht as (m & -> & Hm).
      apply Htrans in Hm as [_ Hm].
      apply list_elem_of_fmap in Hm as (file & -> & Hfile).
      pose proof Hfile as [Hglob Hin]%list_elem_of_filter.
      exists file. repeat split; try assumption.
      apply module_file_strip. now apply Hall.
  - rewrite fmap_app, !names_of_registrations by reflexivity.
    apply NoDup_app. repeat split; try assumption.
    intros m Hm [Hout _]%Htrans. contradiction.
  - intros (t1 & t2 & H1 & H2 & Hname & Henv1 & Henv2).
    apply elem_of_app in H1 as [H1 | H1];
      apply list_elem_of_fmap in H1 as (m1 & -> & Hm1); [| discriminate].
    apply elem_of_app in H2 as [H2 | H2];
      apply list_elem_of_fmap in H2 as (m2 & -> & Hm2); [discriminate |].
    cbn in Hname. subst m2. apply Htrans in Hm2 as [Hout _]. contradiction.
Qed.

(** The sample directory: [test_prim_jit] and [test_sink_decomp] are pure
    cases with a file, [utils.py] and [CMakeLists.txt] are not selected. *)
Lemma sample_entries_directory : module_directory sample_entries.
Proof.
  split.
  - apply (bool_decide_unpack _). vm_compute. exact I.
  - apply (bool_decide_unpack _). vm_compute. exact I.
Qed.

Example CMakeLists_sample :
  TARGET_NAME <$> CMakeLists sample_entries =
  ["test_prim_program"; "test_prim_simpnet"; "test_prim_custom_vjp";
   "test_prim_jit"; "test_pir_prim_flags"; "test_sink_decomp";
   "test_prim_dynamic"; "test_decomp_op"; "test_vjp_prim"].
Proof. reflexivity. Qed.

Lemma pir_prim_modules_registered_once_witness :
  module_directory sample_entries
  /\ filter (λ t, TARGET_NAME t = "test_prim_jit") (CMakeLists sample_entries)
     = [pure_pir_test "test_prim_jit"]
  /\ filter (λ t, TARGET_NAME t = "test_decomp_op")
       (CMakeLists sample_entries)
     = [trans_pir_test "test_decomp_op"]
  /\ NoDup (TARGET_NAME <$> CMakeLists sample_entries).
Proof.
  split; [exact sample_entries_directory |].
  destruct (pir_prim_modules_registered_once sample_entries
              sample_entries_directory)
    as (_ & Hpure & Htrans & _ & Hnodup & _).
  split; [| split].
  - apply (Hpure "test_prim_jit").
    apply (bool_decide_unpack _). vm_compute. exact I.
  - apply (Htrans "test_decomp_op.py" "test_decomp_op").
    + apply (bool_decide_unpack _). vm_compute. exact I.
    + reflexivity.
    + reflexivity.
    + apply (bool_decide_unpack _). vm_compute. exact I.
  - exact Hnodup.
Defined.

(** Outside such directories the replacement of [.py] is not the removal of
    an extension: a name with a second [.py] inside loses both, and here
    meets the stem of its neighbour. *)
Example CMakeLists_inner_py :
  ~ module_directory ["test_a.py"; "test_a.py.py"]
  /\ skipn 7 (TARGET_NAME <$> CMakeLists ["test_a.py"; "test_a.py.py"])
     = ["test_a"; "test_a"].
Proof.
  split; [| reflexivity].
  intros [_ Hall]. apply Forall_cons in Hall as [_ Hall].
  apply Forall_cons in Hall as [H _].
  specialize (H eq_refl). discriminate H.
Qed.

End PirPrimTheorem.

(* ===================================================================== *)
(** * Theorems: the oneDNN test list *)
(* ===================================================================== *)

Section MkldnnTests.
Import mkldnn_tests.

(** The dependencies of the caching test, with and without a GPU backend. *)
Example caching_deps_gpu lib testing onnx win :
  declared_deps <$>
    filter (λ d, declared_name d = "test_mkldnn_caching")
      (CMakeLists {| PADDLE_LIB_NAME := lib; WITH_GPU := true;
                     WITH_ROCM := false; WITH_TESTING := testing;
                     WITH_ONNXRUNTIME := onnx; WIN32 := win |}) =
  [ ["op_registry"; "elementwise_mul_op"; "elementwise_add_op";
     "activation_op"; "phi"; "common"; "scope"; "device_context";
     "enforce"; "generated_static_op"; "depthwise_conv"] ].
Proof. destruct testing, onnx, win; reflexivity. Qed.

(** C7.  Whatever the build options, the file declares the test target
    [test_mkldnn_cpu_quantize_pass] once, as a [cc_test] whose dependencies
    include the fusion pass [conv_activation_mkldnn_fuse_pass] and the
    quantization passes [cpu_quantize_placement_pass] and
    [cpu_quantize_pass]. *)
Theorem quantize_pass_test_declared (o : options) :
  filter (λ d, declared_name d = "test_mkldnn_cpu_quantize_pass")
    (CMakeLists o) =
  [ cc_test "test_mkldnn_cpu_quantize_pass"
      ["test_mkldnn_cpu_quantize_pass.cc"]
      ["executor"; "op_registry"; "activation_op";
       "conv_activation_mkldnn_fuse_pass"; "cpu_quantize_placement_pass";
       "cpu_quantize_pass"; "phi"; "common"; "scope"; "device_context"] ]
  /\ (forall d, d ∈ CMakeLists o ->
        declared_name d = "test_mkldnn_cpu_quantize_pass" ->
        "conv_activation_mkldnn_fuse_pass" ∈ declared_deps d
        /\ "cpu_quantize_placement_pass" ∈ declared_deps d
        /\ "cpu_quantize_pass" ∈ declared_deps d).
Proof.
  assert (Hfilter :
    filter (λ d, declared_name d = "test_mkldnn_cpu_quantize_pass")
      (CMakeLists o) =
    [ cc_test "test_mkldnn_cpu_quantize_pass"
        ["test_mkldnn_cpu_quantize_pass.cc"]
        ["executor"; "op_registry"; "activation_op";
         "conv_activation_mkldnn_fuse_pass"; "cpu_quantize_placement_pass";
         "cpu_quantize_pass"; "phi"; "common"; "scope"; "device_context"] ]).
  { destruct o as [lib [] [] [] [] []]; reflexivity. }
  split; [exact Hfilter |].
  intros d Hin Hname.
  assert (Hd : d ∈ filter
                 (λ d, declared_name d = "test_mkldnn_cpu_quantize_pass")
                 (CMakeLists o))
    by (apply list_elem_of_filter; split; assumption).
  rewrite Hfilter in Hd. apply list_elem_of_singleton in Hd. subst d.
  cbn [declared_deps].
  repeat split; apply (bool_decide_unpack _); vm_compute; exact I.
Qed.

End MkldnnTests.

(* ===================================================================== *)
(** * Theorems: the prototypes of manual_api.h *)
(* ===================================================================== *)

Section ManualApi.
Import dialect.

(** The header holds 21 declarations; [split_with_num_grad] is declared
    twice, with an [int] and with a [pir::Value] axis. *)
Example manual_api_h_overloads :
  length manual_api_h = 21
  /\ length (filter (λ d, name d = "split_with_num_grad") manual_api_h) = 2.
Proof. split; reflexivity. Qed.

(** The source does define functions: the two gradient kernels. *)
Example source_defines_kernels :
  name <$> filter (λ d, is_Some (body d)) source_declarations =
  ["ViewShapeGradKernel"; "ViewDtypeGradKernel"].
Proof. reflexivity. Qed.

(** C8.  The functions manual_api.h declares are the twenty named ones;
    each declaration is a prototype, without a body; and no declaration of
    the source files gives any of these names a body.  The files therefore
    fix the signatures of the helper functions and nothing of what they
    compute. *)
Theorem manual_api_prototypes_only :
  declared_names manual_api_h =
  ["builtin_combine"; "add_n_grad"; "zeros_like"; "parameter";
   "set_parameter"; "embedding_grad"; "split_with_num_grad"; "ones";
   "ones_like"; "zeros"; "create_array"; "create_array_like";
   "array_length"; "array_read"; "array_write_"; "array_to_tensor";
   "tensor_to_array"; "add_n_array"; "slice_array_dense"; "assign"]
  /\ Forall (λ d, body d = None) manual_api_h
  /\ (forall nm, nm ∈ declared_names manual_api_h ->
        definitions_of nm source_declarations = []).
Proof.
  match goal with |- ?names /\ _ => assert (Hnames : names) by reflexivity end.
  split; [exact Hnames | split].
  - unfold manual_api_h. repeat (apply Forall_cons; split; [reflexivity |]).
    apply Forall_nil_2.
  - intros nm Hin. rewrite Hnames in Hin.
    repeat (apply elem_of_cons in Hin as [-> | Hin]; [reflexivity |]).
    now apply elem_of_nil in Hin.
Qed.

End ManualApi.

(* ===================================================================== *)
(** * More on the view gradient kernels *)
(* ===================================================================== *)

Section ViewGradMore.
Import phi.
Context `{TensorCore} {Context : Type} `{!ViewKernel Context}.

(** X1.  If the forward kernel [ViewDtypeKernel] always returns with the
    object behind its output pointer having the element type it was given,
    then for all live [input], [out_grad] and [input_grad] and every [dtype]
    argument, [ViewDtypeGradKernel] returns and the object behind
    [input_grad] has the element type of [input]. *)
Theorem ViewDtypeGradKernel_restores_input_dtype :
  forward_view_sets_dtype ->
  forall dev_ctx input out_grad dtype input_grad (s : Store) input_obj,
    s !! input = Some input_obj ->
    is_Some (s !! out_grad) ->
    is_Some (s !! input_grad) ->
    exists (s' : Store) (grad_obj : DenseTensor),
      ViewDtypeGradKernel dev_ctx input out_grad dtype input_grad s
        = Returns tt s'
      /\ s' !! input_grad = Some grad_obj
      /\ DenseTensor_dtype grad_obj = DenseTensor_dtype input_obj.
Proof.
  intros Hfwd dev_ctx input out_grad dtype input_grad s input_obj
    Hin Hout Hgrad.
  destruct (Hfwd dev_ctx out_grad (DenseTensor_dtype input_obj)
              input_grad s Hout Hgrad) as (s' & grad_obj & Hrun & Hlook & Hdt).
  exists s', grad_obj.
  rewrite ViewDtypeGradKernel_unfold, Hin. auto.
Qed.

(** X2.  If the forward kernel [ViewShapeKernel] writes through its output
    pointer only, a call of [ViewShapeGradKernel] that returns leaves every
    object other than [input_grad] as it was; in particular [input] and
    [out_grad], unless they are the object [input_grad]. *)
Theorem ViewShapeGradKernel_writes_input_grad_only
  dev_ctx input out_grad dims input_grad (s s' : Store) :
  writes_out_only (ViewShapeKernel dev_ctx) ->
  ViewShapeGradKernel dev_ctx input out_grad dims input_grad s
    = Returns tt s' ->
  (forall r, r <> input_grad -> s' !! r = s !! r)
  /\ (input <> input_grad -> s' !! input = s !! input)
  /\ (out_grad <> input_grad -> s' !! out_grad = s !! out_grad).
Proof.
  intros Hframe Hrun.
  rewrite ViewShapeGradKernel_unfold in Hrun.
  destruct (s !! input) as [input_obj |] eqn:Hin; [| discriminate].
  pose proof (Hframe _ _ _ _ _ Hrun) as Hothers.
  repeat split; auto.
  intros Hne. now rewrite Hothers.
Qed.

(** X3.  If the forward kernel [ViewDtypeKernel] writes through its output
    pointer only, a call of [ViewDtypeGradKernel] that returns leaves every
    object other than [input_grad] as it was; in particular [input] and
    [out_grad], unless they are the object [input_grad]. *)
Theorem ViewDtypeGradKernel_writes_input_grad_only
  dev_ctx input out_grad dtype input_grad (s s' : Store) :
  writes_out_only (ViewDtypeKernel dev_ctx) ->
  ViewDtypeGradKernel dev_ctx input out_grad dtype input_grad s
    = Returns tt s' ->
  (forall r, r <> input_grad -> s' !! r = s !! r)
  /\ (input <> input_grad -> s' !! input = s !! input)
  /\ (out_grad <> input_grad -> s' !! out_grad = s !! out_grad).
Proof.
  intros Hframe Hrun.
  rewrite ViewDtypeGradKernel_unfold in Hrun.
  destruct (s !! input) as [input_obj |] eqn:Hin; [| discriminate].
  pose proof (Hframe _ _ _ _ _ Hrun) as Hothers.
  repeat split; auto.
  intros Hne. now rewrite Hothers.
Qed.

End ViewGradMore.

Section ViewGradMoreExamples.
Import phi phi_example.

Lemma cpu_view_sets_dtype : forward_view_sets_dtype (Context := unit).
Proof.
  intros [] x dt out s [t Hx] _.
  exists (<[out := {| extents := extents t; element_type := dt;
                      holder := holder t |}]> s).
  eexists. split; [| split].
  - change (view_dtype tt x dt out s = Returns tt
              (<[out := {| extents := extents t; element_type := dt;
                           holder := holder t |}]> s)).
    unfold view_dtype.
    match goal with
    | |- match ?l with _ => _ end = _ => change l with (s !! x)
    end.
    rewrite Hx. reflexivity.
  - apply lookup_insert_eq.
  - reflexivity.
Qed.

Lemma cpu_view_shape_writes_out_only :
  writes_out_only (ViewShapeKernel (Context := unit) tt).
Proof.
  intros x dims out s s' Hrun r Hr.
  change (view_shape tt x dims out s = Returns tt s') in Hrun.
  unfold view_shape in Hrun.
  destruct (s !! x) as [t |]; [| discriminate].
  injection Hrun as <-. now apply lookup_insert_ne.
Qed.

Lemma cpu_view_dtype_writes_out_only :
  writes_out_only (ViewDtypeKernel (Context := unit) tt).
Proof.
  intros x dt out s s' Hrun r Hr.
  change (view_dtype tt x dt out s = Returns tt s') in Hrun.
  unfold view_dtype in Hrun.
  destruct (s !! x) as [t |]; [| discriminate].
  injection Hrun as <-. now apply lookup_insert_ne.
Qed.

Lemma ViewDtypeGradKernel_restores_input_dtype_witness :
  exists (s' : Store) (grad_obj : tensor),
    ViewDtypeGradKernel tt 1%positive 2%positive INT64 3%positive store0
      = Returns tt s'
    /\ s' !! 3%positive = Some grad_obj
    /\ element_type grad_obj = FLOAT32.
Proof.
  apply (@ViewDtypeGradKernel_restores_input_dtype core unit cpu_view
           cpu_view_sets_dtype tt 1%positive 2%positive INT64 3%positive
           store0 obj1).
  - reflexivity.
  - eexists. reflexivity.
  - eexists. reflexivity.
Defined.

Lemma ViewShapeGradKernel_writes_input_grad_only_witness :
  (forall r, r <> 3%positive ->
     store0_after_shape_grad !! r = store0 !! r)
  /\ (1%positive <> 3%positive ->
      store0_after_shape_grad !! 1%positive = store0 !! 1%positive)
  /\ (2%positive <> 3%positive ->
      store0_after_shape_grad !! 2%positive = store0 !! 2%positive).
Proof.
  apply (@ViewShapeGradKernel_writes_input_grad_only core unit cpu_view
           tt 1%positive 2%positive [7]%Z 3%positive store0
           store0_after_shape_grad cpu_view_shape_writes_out_only).
  reflexivity.
Defined.

Lemma ViewDtypeGradKernel_writes_input_grad_only_witness :
  (forall r, r <> 3%positive ->
     store0_after_dtype_grad !! r = store0 !! r)
  /\ (1%positive <> 3%positive ->
      store0_after_dtype_grad !! 1%positive = store0 !! 1%positive)
  /\ (2%positive <> 3%positive ->
      store0_after_dtype_grad !! 2%positive = store0 !! 2%positive).
Proof.
  apply (@ViewDtypeGradKernel_writes_input_grad_only core unit cpu_view
           tt 1%positive 2%positive UNDEFINED 3%positive store0
           store0_after_dtype_grad cpu_view_dtype_writes_out_only).
  reflexivity.
Defined.

End ViewGradMoreExamples.

(* ===================================================================== *)
(** * More on the pir_prim test registrations *)
(* ===================================================================== *)

Section CMakeListReading.
Import cmake.

Lemma split_semicolon_pieces s :
  Forall (λ piece, lacks semicolon piece = true) (split_semicolon s).
Proof.
  induction s as [|c s IH]; [repeat constructor |].
  cbn [split_semicolon]. destruct (Ascii.eqb c semicolon) eqn:Hc.
  - constructor; [reflexivity | exact IH].
  - destruct (split_semicolon s) as [|piece pieces].
    + repeat constructor. apply lacks_cons.
      split; [now apply Ascii.eqb_neq | reflexivity].
    + apply Forall_cons in IH as [Hpiece Hpieces].
      constructor; [| exact Hpieces].
      apply lacks_cons. split; [now apply Ascii.eqb_neq | exact Hpiece].
Qed.

Lemma split_join_plain l :
  l <> [] ->
  Forall (λ piece, lacks semicolon piece = true) l ->
  split_semicolon (join_semicolon l) = l.
Proof.
  induction l as [|x [|y l] IH]; intros Hne Hall.
  - congruence.
  - apply Forall_cons in Hall as [Hx _]. now apply split_semicolon_plain.
  - apply Forall_cons in Hall as [Hx Hall].
    rewrite join_semicolon_cons, split_semicolon_append by assumption.
    rewrite IH; [reflexivity | discriminate | assumption].
Qed.

Lemma unquoted_join_plain l :
  Forall (λ piece, lacks semicolon piece = true) l ->
  unquoted (join_semicolon l) = filter (λ piece : string, piece ≠ "") l.
Proof.
  intros Hall. unfold unquoted. destruct l as [|x l]; [reflexivity |].
  now rewrite split_join_plain.
Qed.

Lemma list_elements_pieces v :
  Forall (λ piece, lacks semicolon piece = true) (list_elements v).
Proof.
  unfold list_elements. destruct (decide (v = "")); [constructor |].
  apply split_semicolon_pieces.
Qed.

Lemma unquoted_list_elements v :
  filter (λ piece : string, piece ≠ "") (list_elements v) = unquoted v.
Proof.
  unfold list_elements, unquoted.
  destruct (decide (v = "")) as [-> | _]; reflexivity.
Qed.

Lemma unquoted_REMOVE_ITEM v values :
  unquoted (list_REMOVE_ITEM v values) =
  filter (λ x, x ∉ values) (unquoted v).
Proof.
  unfold list_REMOVE_ITEM.
  rewrite unquoted_join_plain
    by (apply Forall_filter_keep, list_elements_pieces).
  rewrite <- unquoted_list_elements, !list_filter_filter.
  apply list_filter_iff. intros x. tauto.
Qed.


End CMakeListReading.

Section PirPrimMore.
Import cmake pir_prim.

(** The file for any directory: the pure cases, then one registration per
    name left after the replacement and the removal. *)
Lemma CMakeLists_normal_form entries :
  CMakeLists entries =
  (pure_pir_test <$> unquoted TEST_PRIM_PURE_PIR_CASES)
  ++ (trans_pir_test <$>
        filter (λ m, m ∉ unquoted TEST_PRIM_PURE_PIR_CASES)
          (unquoted (string_REPLACE ".py" ""
                       (file_GLOB entries "test_*.py")))).
Proof.
  unfold CMakeLists. cbv zeta.
  rewrite unquoted_REMOVE_ITEM.
  change (foreach ?l (λ target, py_test_modules target [target] pure_pir_envs))
    with (foreach l (λ target, [pure_pir_test target])).
  change (foreach ?l (λ target, py_test_modules target [target] trans_pir_envs))
    with (foreach l (λ target, [trans_pir_test target])).
  now rewrite !foreach_singleton.
Qed.



(** X7.  In a directory where no name matches [test_*.py] (an empty one,
    for instance) the file registers the seven pure cases and nothing
    else. *)
Theorem no_test_file_only_pure_cases (entries : list string) :
  Forall (λ name, glob_match "test_*.py" name = false) entries ->
  CMakeLists entries =
  pure_pir_test <$> unquoted TEST_PRIM_PURE_PIR_CASES.
Proof.
  intros Hnone. rewrite CMakeLists_normal_form.
  assert (Hglob : filter (λ name, glob_match "test_*.py" name = true) entries
                  = []).
  { induction Hnone as [|x l Hx _ IH]; [reflexivity |].
    rewrite filter_cons_False by (rewrite Hx; discriminate). exact IH. }
  unfold file_GLOB. rewrite Hglob. cbn [join_semicolon].
  change (unquoted (string_REPLACE ".py" "" "")) with (@nil string).
  rewrite filter_nil, fmap_nil. apply app_nil_r.
Qed.

Lemma length_filter_fmap {A B} (f : A -> B) (P : B -> Prop)
  `{!forall y, Decision (P y)} (l : list A) :
  length (filter P (f <$> l)) = length (filter (λ x, P (f x)) l).
Proof.
  induction l as [|x l IH]; [reflexivity |].
  rewrite fmap_cons. destruct (decide (P (f x))) as [Hp | Hp].
  - rewrite !filter_cons_True by assumption. cbn. now rewrite IH.
  - rewrite !filter_cons_False by assumption. exact IH.
Qed.

(** X10.  In a directory of module files the file registers seven tests
    plus one per [test_*.py] file whose module is not a pure case. *)
Theorem number_of_registrations (entries : list string) :
  module_directory entries ->
  length (CMakeLists entries) =
  7 + length (filter (λ file, stem_of file
                              ∉ unquoted TEST_PRIM_PURE_PIR_CASES)
            (filter (λ name, glob_match "test_*.py" name = true) entries)).
Proof.
  intros Hdir. rewrite (CMakeLists_registrations entries Hdir).
  rewrite length_app, !length_fmap, length_filter_fmap. reflexivity.
Qed.

Lemma number_of_registrations_witness :
  module_directory sample_entries
  /\ length (CMakeLists sample_entries) = 9.
Proof.
  split; [exact sample_entries_directory |].
  rewrite (number_of_registrations sample_entries sample_entries_directory).
  reflexivity.
Defined.

Lemma no_test_file_only_pure_cases_witness :
  CMakeLists ["CMakeLists.txt"; "utils.py"; "test_notes.txt"] =
  pure_pir_test <$> unquoted TEST_PRIM_PURE_PIR_CASES.
Proof.
  apply (no_test_file_only_pure_cases
           ["CMakeLists.txt"; "utils.py"; "test_notes.txt"]).
  repeat constructor.
Defined.

End PirPrimMore.

Section PirPrimGlob.
Import cmake pir_prim.

Lemma glob_literal_unfold p pattern name :
  Ascii.eqb p "*" = false -> Ascii.eqb p "?" = false ->
  glob_match (String p pattern) name =
  match name with
  | EmptyString => false
  | String c name' => Ascii.eqb p c && glob_match pattern name'
  end.
Proof.
  intros Hstar Hany. cbn [glob_match]. rewrite Hstar, Hany.
  destruct name; reflexivity.
Qed.

Lemma glob_literal_cons p pattern c name :
  Ascii.eqb p "*" = false -> Ascii.eqb p "?" = false ->
  glob_match (String p pattern) (String c name) = true <->
  c = p /\ glob_match pattern name = true.
Proof.
  intros Hstar Hany. rewrite glob_literal_unfold by assumption.
  rewrite andb_true_iff, Ascii.eqb_eq. intuition congruence.
Qed.

Lemma glob_literal_nil p pattern :
  Ascii.eqb p "*" = false -> Ascii.eqb p "?" = false ->
  glob_match (String p pattern) "" = false.
Proof. intros Hstar Hany. now rewrite glob_literal_unfold. Qed.

Lemma glob_empty name : glob_match "" name = true <-> name = "".
Proof.
  cbn [glob_match]. destruct (decide (name = "")); intuition discriminate.
Qed.

Lemma glob_literal_py name : glob_match ".py" name = true <-> name = ".py".
Proof.
  split; [| intros ->; reflexivity].
  destruct name as [|c1 name]; [now rewrite glob_literal_nil |].
  intros [-> H]%glob_literal_cons; [| reflexivity ..].
  destruct name as [|c2 name]; [now rewrite glob_literal_nil in H |].
  apply glob_literal_cons in H as [-> H]; [| reflexivity ..].
  destruct name as [|c3 name]; [now rewrite glob_literal_nil in H |].
  apply glob_literal_cons in H as [-> H]; [| reflexivity ..].
  apply glob_empty in H. now subst.
Qed.

Lemma glob_star_unfold pattern name :
  glob_match (String "*" pattern) name =
  glob_match pattern name
  || match name with
     | EmptyString => false
     | String _ name' => glob_match (String "*" pattern) name'
     end.
Proof. destruct name; reflexivity. Qed.

Lemma glob_star_py name :
  glob_match "*.py" name = true <-> exists mid, name = mid +:+ ".py".
Proof.
  split.
  - induction name as [|c name IH]; rewrite glob_star_unfold.
    + rewrite orb_false_r. intros H%glob_literal_py. discriminate.
    + intros [H%glob_literal_py | Hrest]%orb_true_iff.
      * rewrite H. now exists "".
      * destruct (IH Hrest) as [mid ->]. now exists (String c mid).
  - intros [mid ->]. induction mid as [|c mid IH]; [reflexivity |].
    rewrite append_cons, glob_star_unfold, IH. apply orb_true_r.
Qed.

(** X4.  The globbing expression [test_*.py] selects exactly the names
    that start with [test_] and end with [.py], the two parts not
    overlapping. *)
Theorem glob_test_py_selects (name : string) :
  glob_match "test_*.py" name = true <->
  exists mid, name = "test_" +:+ mid +:+ ".py".
Proof.
  split.
  - intros H.
    do 5 (destruct name as [|? name]; [now rewrite glob_literal_nil in H |];
          apply glob_literal_cons in H as [-> H]; [| reflexivity ..]).
    apply glob_star_py in H as [mid ->]. now exists mid.
  - intros [mid ->].
    change (glob_match "test_*.py" ("test_" +:+ mid +:+ ".py"))
      with (glob_match "*.py" (mid +:+ ".py")).
    apply glob_star_py. now exists mid.
Qed.

Lemma file_GLOB_skip e1 f e2 expr :
  glob_match expr f = false ->
  file_GLOB (e1 ++ f :: e2) expr = file_GLOB (e1 ++ e2) expr.
Proof.
  intros Hf. unfold file_GLOB.
  rewrite !filter_app, filter_cons_False by (rewrite Hf; discriminate).
  reflexivity.
Qed.

(** X8.  A directory entry that does not match [test_*.py] changes nothing:
    with or without it the file makes the same registrations. *)
Theorem other_files_do_not_matter (e1 e2 : list string) (f : string) :
  glob_match "test_*.py" f = false ->
  CMakeLists (e1 ++ f :: e2) = CMakeLists (e1 ++ e2).
Proof.
  intros Hf. rewrite !CMakeLists_normal_form.
  now rewrite (file_GLOB_skip e1 f e2 "test_*.py" Hf).
Qed.

Lemma other_files_do_not_matter_witness :
  CMakeLists (["test_decomp_op.py"] ++ "utils.py" :: ["test_vjp_prim.py"]) =
  CMakeLists (["test_decomp_op.py"] ++ ["test_vjp_prim.py"]).
Proof.
  apply (other_files_do_not_matter ["test_decomp_op.py"] ["test_vjp_prim.py"]
           "utils.py").
  reflexivity.
Defined.

Lemma module_directory_remove e1 f e2 :
  module_directory (e1 ++ f :: e2) -> module_directory (e1 ++ e2).
Proof.
  intros [Hnd Hall]. split.
  - apply NoDup_app in Hnd as (H1 & Hdisj & H2).
    apply NoDup_cons in H2 as [_ H2]. apply NoDup_app.
    repeat split; try assumption.
    intros x Hx Hx2. apply (Hdisj x Hx). now apply list_elem_of_further.
  - apply Forall_app in Hall as [H1 H2].
    apply Forall_cons in H2 as [_ H2]. apply Forall_app. now split.
Qed.

(** X9.  In a directory of module files, a file [test_*.py] whose module
    is not a pure case accounts for exactly one registration, with the
    environment of the second loop: the registrations with the file are
    those without it plus that one, up to order. *)
Theorem new_module_file_is_registered (e1 e2 : list string) (f : string) :
  module_directory (e1 ++ f :: e2) ->
  glob_match "test_*.py" f = true ->
  stem_of f ∉ unquoted TEST_PRIM_PURE_PIR_CASES ->
  CMakeLists (e1 ++ f :: e2) ≡ₚ
  CMakeLists (e1 ++ e2) ++ [trans_pir_test (stem_of f)].
Proof.
  intros Hdir Hglob Hout.
  rewrite (CMakeLists_registrations _ Hdir).
  rewrite (CMakeLists_registrations _ (module_directory_remove _ _ _ Hdir)).
  rewrite !filter_app, filter_cons_True by exact Hglob.
  rewrite !fmap_app, fmap_cons, !filter_app, filter_cons_True by exact Hout.
  rewrite !fmap_app, fmap_cons, <- !app_assoc.
  apply Permutation_app_head, Permutation_app_head.
  apply Permutation_cons_append.
Qed.

Lemma new_module_file_is_registered_witness :
  CMakeLists (["test_decomp_op.py"] ++ "test_new_op.py"
                :: ["test_vjp_prim.py"]) ≡ₚ
  CMakeLists (["test_decomp_op.py"] ++ ["test_vjp_prim.py"])
  ++ [trans_pir_test "test_new_op"].
Proof.
  apply (new_module_file_is_registered
           ["test_decomp_op.py"] ["test_vjp_prim.py"] "test_new_op.py").
  - split; apply (bool_decide_unpack _); vm_compute; exact I.
  - reflexivity.
  - apply (bool_decide_unpack _). vm_compute. exact I.
Defined.

End PirPrimGlob.

(* ===================================================================== *)
(** * More on the oneDNN test list *)
(* ===================================================================== *)

Section MkldnnMore.
Import mkldnn_tests.

(** X11.  Whatever the options, [test_mkldnn_caching] is declared once,
    with the ten dependencies of [TEST_MKLDNN_CACHING_DEPS], followed by
    [depthwise_conv] exactly when [WITH_GPU] or [WITH_ROCM] is set. *)
Theorem caching_test_depthwise_conv (o : options) :
  filter (λ d, declared_name d = "test_mkldnn_caching") (CMakeLists o) =
  [ cc_test "test_mkldnn_caching" ["test_mkldnn_caching.cc"]
      (["op_registry"; "elementwise_mul_op"; "elementwise_add_op";
        "activation_op"; "phi"; "common"; "scope"; "device_context";
        "enforce"; "generated_static_op"]
       ++ (if WITH_GPU o || WITH_ROCM o then ["depthwise_conv"] else [])) ].
Proof. destruct o as [lib [] [] [] [] []]; reflexivity. Qed.

(** X12.  Whatever the options, no target is added twice: the targets are
    the six [cc_test]s, with [test_mkldnn_op_nhwc] among them exactly when
    [WITH_TESTING] is set. *)
Theorem added_targets_distinct (o : options) :
  NoDup (added_targets o)
  /\ added_targets o =
     ["test_mkldnn_op_inplace"; "test_mkldnn_cpu_quantize_pass";
      "test_conv_mkldnn_nhwc"; "test_mkldnn_caching"]
     ++ (if WITH_TESTING o then ["test_mkldnn_op_nhwc"] else [])
     ++ ["test_mkldnn_pool_adaptive_op"; "test_mkldnn_squeeze"].
Proof.
  destruct o as [lib [] [] [] [] []];
    (split; [apply (bool_decide_unpack _); vm_compute; exact I | reflexivity]).
Qed.

(** X13.  [copy_onnx] is called exactly when [WITH_ONNXRUNTIME] and [WIN32]
    are set, and only for [test_mkldnn_op_nhwc]; that target is one the
    file adds exactly when [WITH_TESTING] is set. *)
Theorem copy_onnx_target (o : options) :
  filter (λ d, adds_target d = false) (CMakeLists o) =
  (if WITH_ONNXRUNTIME o && WIN32 o
   then [copy_onnx "test_mkldnn_op_nhwc"] else [])
  /\ ("test_mkldnn_op_nhwc" ∈ added_targets o <-> WITH_TESTING o = true).
Proof.
  split.
  - destruct o as [lib [] [] [] [] []]; reflexivity.
  - assert (Hdec : bool_decide ("test_mkldnn_op_nhwc" ∈ added_targets o)
                   = WITH_TESTING o)
      by (destruct o as [lib [] [] [] [] []]; vm_compute; reflexivity).
    rewrite <- Hdec. symmetry. apply bool_decide_eq_true.
Qed.

End MkldnnMore.
